(** * pyeither: the [Perhaps] container of the motivation notebook and README

    The repository teaches "failure as a value" by building a small class
    [Perhaps] with two fields ([value], [success]) and three methods
    ([inside], [collapse], [and_then]).  The class is written twice: in the
    notebook [pyeither_demo.ipynb] (final form in the cell that adds
    [and_then]) and in the README's "entire implementation" listing.  Both
    are embedded below, each in its own module, over one model of the Python
    objects they manipulate. *)

From Stdlib Require Import ZArith List Bool DecimalString.
From stdpp Require Import base strings gmap.

Local Open Scope string_scope.

(** ** Python objects *)

(** Exceptions that the embedded code can meet: the two raised by the
    interpreter itself (an unbound name, a missing attribute) and any
    exception of a caller-supplied function, kept as class name and message. *)
Inductive exn : Type :=
| NameError (name : string)
| AttributeError (attr : string)
| PyError (cls msg : string).

(** The values that flow through the container.  Both attributes of a
    [Perhaps] instance are unconstrained ([attr.ib()] without validator), so
    both are arbitrary objects.  [VObj] stands for any object the code never
    looks into (a function, a class, a module, a float), known by a label. *)
Inductive val : Type :=
| VNone
| VBool (b : bool)
| VInt (n : Z)
| VStr (s : string)
| VExc (e : exn)
| VObj (label : string)
| VPerhaps (value success : val).

(** Truth value testing, as done by [if self.success] and [not x].  The
    [Perhaps] class defines neither [__bool__] nor [__len__], so its
    instances are true. *)
Definition truthy (v : val) : bool :=
  match v with
  | VNone => false
  | VBool b => b
  | VInt n => negb (n =? 0)%Z
  | VStr s => negb (String.eqb s "")
  | VExc _ => true
  | VObj _ => true
  | VPerhaps _ _ => true
  end.

Definition exn_eqb (a b : exn) : bool :=
  match a, b with
  | NameError x, NameError y => String.eqb x y
  | AttributeError x, AttributeError y => String.eqb x y
  | PyError c m, PyError c' m' => String.eqb c c' && String.eqb m m'
  | _, _ => false
  end.

(** [bool] is a subclass of [int]: [True == 1] and [False == 0]. *)
Definition as_int (v : val) : option Z :=
  match v with
  | VBool b => Some (if b then 1 else 0)%Z
  | VInt n => Some n
  | _ => None
  end.

(** Python's [==] on these objects.  [attr.s] generates an [__eq__] that
    compares the tuples of attributes of two instances of the class;
    exceptions and opaque objects compare by identity, a term standing for
    one object. *)
Fixpoint py_eq (a b : val) : bool :=
  match a, b with
  | VNone, VNone => true
  | VStr s, VStr t => String.eqb s t
  | VExc e, VExc e' => exn_eqb e e'
  | VObj l, VObj l' => String.eqb l l'
  | VPerhaps v s, VPerhaps v' s' => py_eq v v' && py_eq s s'
  | (VBool _ | VInt _), (VBool _ | VInt _) =>
      match as_int a, as_int b with
      | Some x, Some y => (x =? y)%Z
      | _, _ => false
      end
  | _, _ => false
  end.

(** ** Running Python code

    A computation runs in a world [W] (whatever the called functions read or
    change: files, counters, output), and ends with a value or with a raised
    exception.  The world is threaded explicitly; what a function did before
    it raised stays done. *)
Inductive outcome (A : Type) : Type :=
| Ok (a : A)
| Raise (e : exn).
Arguments Ok {A} a.
Arguments Raise {A} e.

Definition Py (W A : Type) : Type := W -> outcome A * W.

Definition ret {W A} (a : A) : Py W A := fun w => (Ok a, w).

Definition raise {W A} (e : exn) : Py W A := fun w => (Raise e, w).

Definition bind {W A B} (c : Py W A) (k : A -> Py W B) : Py W B :=
  fun w =>
    match c w with
    | (Ok a, w') => k a w'
    | (Raise e, w') => (Raise e, w')
    end.

(** [try: body except: handler], with a bare [except:] clause. *)
Definition try_except {W A} (body : Py W A) (handler : Py W A) : Py W A :=
  fun w =>
    match body w with
    | (Ok a, w') => (Ok a, w')
    | (Raise _, w') => handler w'
    end.

Notation "'let*' x := c 'in' k" := (bind c (fun x => k))
  (at level 10, x name, c at level 100, k at level 200).

(** A one-argument Python function, as passed to [inside] and [and_then]. *)
Definition pyfun (W : Type) : Type := val -> Py W val.

(** A Python function that only computes: it returns [g v] and neither
    raises nor touches the world. *)
Definition lift {W} (g : val -> val) : pyfun W := fun v => ret (g v).

(** A function called with positional and keyword arguments, as in
    [f( *args, **kwargs )]. *)
Definition pyfun_star (W : Type) : Type :=
  list val -> list (string * val) -> Py W val.

(** ** The notebook *)

Module Notebook.

(** The module namespace after the last cell has run: every name bound at
    top level by an [import], [def], [class], assignment or [with ... as].
    Floats are opaque here ([a] is [div(10, 2)], [b] is
    [a.inside(times_10)]). *)
Definition globals : gmap string val :=
  list_to_map
    [ ("attr", VObj "module attr"); ("either", VObj "module either");
      ("catch_locally", VObj "function catch_locally");
      ("main_v1", VObj "function main_v1");
      ("catch_nonlocally", VObj "function catch_nonlocally");
      ("main_v2", VObj "function main_v2");
      ("div", VObj "function div");
      ("main_v3", VObj "function main_v3");
      ("Perhaps", VObj "class Perhaps");
      ("fail", VPerhaps VNone (VBool false));
      ("succeed", VObj "function succeed");
      ("times_10", VObj "function times_10");
      ("a", VPerhaps (VObj "5.0") (VBool true));
      ("b", VPerhaps (VObj "50.0") (VBool true));
      ("even", VObj "function even");
      ("fd", VObj "file example_invalid.yaml");
      ("os", VObj "module os"); ("yaml", VObj "module yaml");
      ("Person", VObj "class Person");
      ("attempt", VObj "function attempt");
      ("ensure_path", VObj "function ensure_path");
      ("read_content", VObj "function read_content");
      ("parse_yaml", VObj "function parse_yaml");
      ("load_person", VObj "function load_person");
      ("process", VObj "function process") ].

(** Reading a name that is not local to the function body: the module
    namespace, then the builtins (none of which is called [success]; the
    names IPython itself adds -- [In], [Out], [_] and the like -- are left
    out of [globals]). *)
Definition load_global {W} (name : string) : Py W val :=
  match globals !! name with
  | Some v => ret v
  | None => raise (NameError name)
  end.

(** [Perhaps(value, success)]: the attributes in declaration order. *)
Definition Perhaps (value success : val) : val := VPerhaps value success.

(** [fail = Perhaps(None, False)] *)
Definition fail : val := Perhaps VNone (VBool false).

(** [def succeed(v): return Perhaps(v, True)] *)
Definition succeed (v : val) : val := Perhaps v (VBool true).

Section Methods.
Context {W : Type}.

(** [@property def failure(self): return not success] *)
Definition failure (self : val) : Py W val :=
  match self with
  | VPerhaps _ _ =>
      let* success := load_global "success" in
      ret (VBool (negb (truthy success)))
  | _ => raise (AttributeError "failure")
  end.

(** [def inside(self, f)]:
    [if self.success: return succeed(f(self.value)) else: return fail] *)
Definition inside (self : val) (f : pyfun W) : Py W val :=
  match self with
  | VPerhaps value success =>
      if truthy success
      then (let* r := f value in ret (succeed r))
      else ret fail
  | _ => raise (AttributeError "inside")
  end.

(** [def collapse(self)]:
    [if self.success: return self.value else: return fail] *)
Definition collapse (self : val) : Py W val :=
  match self with
  | VPerhaps value success =>
      if truthy success then ret value else ret fail
  | _ => raise (AttributeError "collapse")
  end.

(** [def and_then(self, f): return self.inside(f).collapse()] *)
Definition and_then (self : val) (f : pyfun W) : Py W val :=
  match self with
  | VPerhaps _ _ => (let* r := inside self f in collapse r)
  | _ => raise (AttributeError "and_then")
  end.

(** [def attempt(f, *args, **kwargs)]:
    [try: return succeed(f( *args, **kwargs )) except: return fail] *)
Definition attempt (f : pyfun_star W) (args : list val)
    (kwargs : list (string * val)) : Py W val :=
  try_except (let* r := f args kwargs in ret (succeed r)) (ret fail).

(** [def even(n)]:
    [if n % 2 == 0: return succeed(n) else: return fail], on integers
    (and booleans, which are integers); [%] on the other objects of [val] is
    a [TypeError]. *)
Definition even (n : val) : Py W val :=
  match as_int n with
  | Some z => if (z mod 2 =? 0)%Z then ret (succeed n) else ret fail
  | None => raise (PyError "TypeError" "unsupported operand type(s) for %")
  end.

End Methods.

End Notebook.

(** ** The README's listing of "the entire implementation"

    Same class, with the attributes declared in the other order, [and_then]
    written with its own branch and [collapse] defined through it.  (The
    listing indents [def inside] by three columns instead of four; it is read
    here as the method it is meant to be.) *)

Module Readme.

(** [def identity(v): return v] *)
Definition identity (v : val) : val := v.

(** [Perhaps(success, value)]: the attributes in declaration order. *)
Definition Perhaps (success value : val) : val := VPerhaps value success.

(** [fail = Perhaps(False, None)] *)
Definition fail : val := Perhaps (VBool false) VNone.

(** [def succeed(v): return Perhaps(True, v)] *)
Definition succeed (v : val) : val := Perhaps (VBool true) v.

Section Methods.
Context {W : Type}.

(** [@property def failure(self): return not self.success] *)
Definition failure (self : val) : Py W val :=
  match self with
  | VPerhaps _ success => ret (VBool (negb (truthy success)))
  | _ => raise (AttributeError "failure")
  end.

(** [def inside(self, f)]:
    [if self.success: return succeed(f(self.value)) else: return fail] *)
Definition inside (self : val) (f : pyfun W) : Py W val :=
  match self with
  | VPerhaps value success =>
      if truthy success
      then (let* r := f value in ret (succeed r))
      else ret fail
  | _ => raise (AttributeError "inside")
  end.

(** [def and_then(self, f)]:
    [if self.success: return f(self.value) else: return fail] *)
Definition and_then (self : val) (f : pyfun W) : Py W val :=
  match self with
  | VPerhaps value success =>
      if truthy success then f value else ret fail
  | _ => raise (AttributeError "and_then")
  end.

(** [def collapse(self): return self.and_then(identity)] *)
Definition collapse (self : val) : Py W val :=
  match self with
  | VPerhaps _ _ => and_then self (lift identity)
  | _ => raise (AttributeError "collapse")
  end.

End Methods.

End Readme.

(** ** Printing *)

Module Render.

Section Str.
(** [str(x)] for the objects whose text this model does not fix: exceptions
    and opaque objects (a float prints as its shortest decimal form). *)
Variable str_atom : val -> string.

(** [str(x)], which is what [print] and ["{}".format(x)] show.  On an
    instance of [Perhaps] it is the class's
    [def __repr__(self)]:
    [if self.success: return "Success({})".format(self.value)
     else: return "Failure"]. *)
Fixpoint str (v : val) : string :=
  match v with
  | VPerhaps value success =>
      if truthy success then "Success(" ++ str value ++ ")" else "Failure"
  | VNone => "None"
  | VBool b => if b then "True" else "False"
  | VInt n => NilZero.string_of_int (Z.to_int n)
  | VStr s => s
  | VExc _ | VObj _ => str_atom v
  end.

End Str.

End Render.

(** ** The three ways of handling a division by zero (first cells) *)

Module Console.

(** The terminal: the lines still to be typed, and what was written. *)
Record console : Type := { stdin : list string; stdout : string }.

Definition newline : string := String (Ascii.ascii_of_nat 10) EmptyString.

(** [input(prompt)]: writes the prompt, then reads a line; [EOFError] when
    there is none. *)
Definition py_input (prompt : string) : Py console string :=
  fun w =>
    match stdin w with
    | line :: rest => (Ok line, {| stdin := rest; stdout := stdout w ++ prompt |})
    | [] => (Raise (PyError "EOFError" "EOF when reading a line"),
             {| stdin := []; stdout := stdout w ++ prompt |})
    end.

(** [print(s)] *)
Definition py_print (s : string) : Py console val :=
  fun w => (Ok VNone, {| stdin := stdin w; stdout := stdout w ++ s ++ newline |}).

(** The class of an exception, as an [except Cls:] clause tests it. *)
Definition exn_class (e : exn) : string :=
  match e with
  | NameError _ => "NameError"
  | AttributeError _ => "AttributeError"
  | PyError cls _ => cls
  end.

(** [try: body except cls: handler] *)
Definition try_except_class {W A} (cls : string) (body handler : Py W A) : Py W A :=
  fun w =>
    match body w with
    | (Ok a, w') => (Ok a, w')
    | (Raise e, w') =>
        if String.eqb (exn_class e) cls then handler w' else (Raise e, w')
    end.

Section Cells.
(** [int(s)] on a string: the integer it denotes, if any. *)
Variable int_of_str : string -> option Z.
(** [repr(s)] of a string: the text in quotes, with its escapes. *)
Variable repr_str : string -> string.
(** The float nearest to [a / b] for [b <> 0], as the label of an opaque
    object; none when the quotient is too large for a float. *)
Variable float_quot : Z -> Z -> option string.
Variable str_atom : val -> string.

Definition py_int {W} (s : string) : Py W Z :=
  match int_of_str s with
  | Some n => ret n
  | None => raise (PyError "ValueError"
                      ("invalid literal for int() with base 10: " ++ repr_str s))
  end.

(** [a / b] on two integers. *)
Definition truediv {W} (a b : Z) : Py W val :=
  if (b =? 0)%Z then raise (PyError "ZeroDivisionError" "division by zero")
  else match float_quot a b with
       | Some q => ret (VObj q)
       | None => raise (PyError "OverflowError"
                          "integer division result too large for a float")
       end.

(** [def catch_locally(a, b)]:
    [try: return a / b except ZeroDivisionError: return None] *)
Definition catch_locally {W} (a b : Z) : Py W val :=
  try_except_class "ZeroDivisionError" (truediv a b) (ret VNone).

(** [a, b = int(input("Number 1: ")), int(input("Number 2: "))] *)
Definition read_numbers : Py console (Z * Z) :=
  let* s1 := py_input "Number 1: " in
  let* a := py_int s1 in
  let* s2 := py_input "Number 2: " in
  let* b := py_int s2 in
  ret (a, b).

(** [def main_v1()]: reads [a], [b]; [result = catch_locally(a, b)];
    [if result is None: print("Something bad happened")
     else: print("And the answer is: {}".format(result))] *)
Definition main_v1 : Py console val :=
  let* ab := read_numbers in
  let* result := catch_locally (fst ab) (snd ab) in
  match result with
  | VNone => py_print "Something bad happened"
  | _ => py_print ("And the answer is: " ++ Render.str str_atom result)
  end.

(** [def catch_nonlocally(a, b): return a / b] *)
Definition catch_nonlocally {W} (a b : Z) : Py W val := truediv a b.

(** [def main_v2()]: reads [a], [b];
    [try: result = catch_nonlocally(a, b);
          print("And the answer is: {}".format(result))
     except ZeroDivisionError: print("Something bad happened")] *)
Definition main_v2 : Py console val :=
  let* ab := read_numbers in
  try_except_class "ZeroDivisionError"
    (let* result := catch_nonlocally (fst ab) (snd ab) in
     py_print ("And the answer is: " ++ Render.str str_atom result))
    (py_print "Something bad happened").

(** [def div(a, b)]:
    [try: return True, a / b except ZeroDivisionError: return False, None] *)
Definition div {W} (a b : Z) : Py W (val * val) :=
  try_except_class "ZeroDivisionError"
    (let* q := truediv a b in ret (VBool true, q))
    (ret (VBool false, VNone)).

(** [def main_v3()]: reads [a], [b]; [success, result = div(a, b)];
    [if success: print("And the answer is: {}".format(result))
     else: print("Something bad happened")] *)
Definition main_v3 : Py console val :=
  let* ab := read_numbers in
  let* sr := div (fst ab) (snd ab) in
  if truthy (fst sr)
  then py_print ("And the answer is: " ++ Render.str str_atom (snd sr))
  else py_print "Something bad happened".

End Cells.

End Console.

(** ** [div] with [Perhaps] *)

Module PerhapsDemo.

(** [def div(a, b): return fail if b == 0 else succeed(a / b)] *)
Definition div {W} (float_quot : Z -> Z -> option string) (a b : Z) : Py W val :=
  if (b =? 0)%Z then ret Notebook.fail
  else (let* q := Console.truediv float_quot a b in ret (Notebook.succeed q)).

End PerhapsDemo.

(** ** The configuration pipeline of the notebook *)

(** Calling [f( *args, **kwargs )] for a function of one positional
    parameter. *)
Definition positional1 {W} (f : pyfun W) : pyfun_star W :=
  fun args kwargs =>
    match args, kwargs with
    | [x], [] => f x
    | _, _ => raise (PyError "TypeError" "wrong number of arguments")
    end.

Module Pipeline.

Section Cell.
Context {W : Type}.
(** [os.path.isfile] *)
Variable isfile : pyfun W.
(** [open(path).read()]: the text of the file. *)
Variable open_read : val -> Py W string.
(** [yaml.safe_load] *)
Variable safe_load : pyfun W.
(** [config[key]] *)
Variable subscript : val -> string -> Py W val.
(** [Person(name, age)], an [attr.s] class with these two attributes. *)
Variable Person : val -> val -> val.

(** [def from_config(cls, config)]:
    [return Person(config["name"], config["age"])] *)
Definition from_config (config : val) : Py W val :=
  let* name := subscript config "name" in
  let* age := subscript config "age" in
  ret (Person name age).

(** [def ensure_path(path)]:
    [return succeed(path) if os.path.isfile(path) else fail] *)
Definition ensure_path (path : val) : Py W val :=
  let* b := isfile path in
  ret (if truthy b then Notebook.succeed path else Notebook.fail).

(** [def read_content(path): return succeed(open(path).read())] *)
Definition read_content (path : val) : Py W val :=
  let* text := open_read path in
  ret (Notebook.succeed (VStr text)).

(** [def parse_yaml(content): return attempt(yaml.safe_load, content)] *)
Definition parse_yaml (content : val) : Py W val :=
  Notebook.attempt (positional1 safe_load) [content] [].

(** [def load_person(config): return attempt(Person.from_config, config)] *)
Definition load_person (config : val) : Py W val :=
  Notebook.attempt (positional1 from_config) [config] [].

(** [def process(path)]:
    [return (succeed(path).inside(ensure_path).collapse()
             .inside(read_content).collapse()
             .inside(parse_yaml).collapse()
             .inside(load_person).collapse())] *)
Definition process (path : val) : Py W val :=
  let* r1 := Notebook.inside (Notebook.succeed path) ensure_path in
  let* r2 := Notebook.collapse r1 in
  let* r3 := Notebook.inside r2 read_content in
  let* r4 := Notebook.collapse r3 in
  let* r5 := Notebook.inside r4 parse_yaml in
  let* r6 := Notebook.collapse r5 in
  let* r7 := Notebook.inside r6 load_person in
  Notebook.collapse r7.

(** The same function after [and_then] is added:
    [return (succeed(path).and_then(ensure_path).and_then(read_content)
             .and_then(parse_yaml).and_then(load_person))] *)
Definition process_and_then (path : val) : Py W val :=
  let* r1 := Notebook.and_then (Notebook.succeed path) ensure_path in
  let* r2 := Notebook.and_then r1 read_content in
  let* r3 := Notebook.and_then r2 parse_yaml in
  Notebook.and_then r3 load_person.

End Cell.

End Pipeline.

(** ** The README's examples *)

Module ReadmeDemo.

(** [def always_succeed(n): return succeed(n)] *)
Definition always_succeed {W} : pyfun W := fun n => ret (Readme.succeed n).

(** [def always_fail(n): return fail] *)
Definition always_fail {W} : pyfun W := fun _ => ret Readme.fail.

Section Listing.
Context {W : Type}.
(** [os.path.exists] *)
Variable exists_ : pyfun W.
(** [open(path).read()]: the text of the file. *)
Variable open_read : val -> Py W string.
(** [yaml.safe_load] *)
Variable safe_load : pyfun W.

(** [def ensure_path(path)]:
    [return succeed(path) if os.path.exists(path) else fail] *)
Definition ensure_path (path : val) : Py W val :=
  let* b := exists_ path in
  ret (if truthy b then Readme.succeed path else Readme.fail).

(** [def read_file(path)]:
    [try: return open(path).read() except: return fail] *)
Definition read_file (path : val) : Py W val :=
  try_except (let* text := open_read path in ret (VStr text)) (ret Readme.fail).

(** [def parse_content(content)]:
    [try: return yaml.safe_load(content) except: return fail] *)
Definition parse_content (content : val) : Py W val :=
  try_except (safe_load content) (ret Readme.fail).

(** [def process(path)]:
    [return succeed(path).inside(ensure_path).collapse()
            .inside(read_file).collapse()
            .inside(parse_content).collapse()],
    with the methods of the class as the README lists it in full (the
    shorter listings of [collapse] and [and_then] that come first are the
    notebook's, word for word). *)
Definition process (path : val) : Py W val :=
  let* r1 := Readme.inside (Readme.succeed path) ensure_path in
  let* r2 := Readme.collapse r1 in
  let* r3 := Readme.inside r2 read_file in
  let* r4 := Readme.collapse r3 in
  let* r5 := Readme.inside r4 parse_content in
  Readme.collapse r5.

(** The same function after [and_then] is added:
    [return succeed(path).and_then(ensure_path).and_then(read_file)
            .and_then(parse_content)] *)
Definition process_and_then (path : val) : Py W val :=
  let* r1 := Readme.and_then (Readme.succeed path) ensure_path in
  let* r2 := Readme.and_then r1 read_file in
  Readme.and_then r2 parse_content.

End Listing.

End ReadmeDemo.

(** ** Test doubles *)

(** A call-counting stub: runs [f] and counts the call in the first
    component of the world. *)
Definition counted {W} (f : pyfun W) : pyfun (nat * W) :=
  fun v nw =>
    match f v (snd nw) with
    | (o, w') => (o, (S (fst nw), w'))
    end.

(** A function that raises [e] whatever it is given. *)
Definition always_raises {W} (e : exn) : pyfun_star W :=
  fun _ _ => raise e.

(** A function that returns its first positional argument ([None] when
    called without one). *)
Definition first_arg {W} : pyfun_star W :=
  fun args _ => ret (hd VNone args).

(** A failure-tagged instance whose [value] attribute is not [None]:
    [Perhaps(5, False)]. *)
Definition failure_with_payload : val := Notebook.Perhaps (VInt 5) (VBool false).

Definition zero_division : exn := PyError "ZeroDivisionError" "division by zero".

(** A disk, for running the pipelines: the text of each file, by path. *)
Definition disk_isfile : pyfun (gmap string string) :=
  fun path w =>
    match path with
    | VStr p => (Ok (VBool (match w !! p with Some _ => true | None => false end)), w)
    | _ => (Raise (PyError "TypeError" "expected str"), w)
    end.

Definition disk_read : val -> Py (gmap string string) string :=
  fun path w =>
    match path with
    | VStr p =>
        match w !! p with
        | Some text => (Ok text, w)
        | None => (Raise (PyError "FileNotFoundError" p), w)
        end
    | _ => (Raise (PyError "TypeError" "expected str"), w)
    end.

(** The two files the notebook writes before running the pipeline. *)
Definition example_yaml : string :=
  "---" ++ Console.newline ++ "name: mkbernard" ++ Console.newline
  ++ "age: 30" ++ Console.newline.

Definition example_invalid_yaml : string :=
  "---" ++ Console.newline ++ "  name: mkbernard" ++ Console.newline
  ++ "age: 30" ++ Console.newline.

Definition demo_disk : gmap string string :=
  <["example.yaml" := example_yaml]>
    (<["example_invalid.yaml" := example_invalid_yaml]> ∅).

(** A stand-in for the YAML loader: it knows the valid example only. *)
Definition toy_load {W} : pyfun W :=
  fun content =>
    match content with
    | VStr text =>
        if String.eqb text example_yaml then ret (VObj "config")
        else raise (PyError "ScannerError" "expected '<document start>'")
    | _ => raise (PyError "AttributeError" "read")
    end.

(** A stand-in for subscripting the loaded document. *)
Definition toy_subscript {W} (config : val) (key : string) : Py W val :=
  match config with
  | VObj "config" =>
      if String.eqb key "name" then ret (VStr "mkbernard")
      else if String.eqb key "age" then ret (VInt 30)
      else raise (PyError "KeyError" key)
  | _ => raise (PyError "TypeError" "not subscriptable")
  end.

(** A stand-in for [str] on opaque objects: the label itself. *)
Definition label_str (v : val) : string :=
  match v with
  | VObj l => l
  | VExc (PyError _ m) => m
  | _ => ""
  end.

(** A stand-in for the [Person] class: an opaque object labelled with what
    [attr.s] prints for it (the name in quotes). *)
Definition toy_person (name age : val) : val :=
  VObj ("Person(name='" ++ Render.str label_str name ++ "', age="
        ++ Render.str label_str age ++ ")").

(** Stand-ins for [int] on a string (plain decimal numerals) and for the
    float quotient (the text is right when [b] divides [a]). *)
Definition decimal_int (s : string) : option Z :=
  option_map Z.of_int (NilZero.int_of_string s).

(** A stand-in for [repr] on a string without quotes or escapes in it. *)
Definition quoted (s : string) : string := "'" ++ s ++ "'".

Definition whole_quot (a b : Z) : option string :=
  Some (NilZero.string_of_int (Z.to_int (a / b)) ++ ".0").

(** The attribute [r.value] of an instance. *)
Definition value_of (r : val) : option val :=
  match r with
  | VPerhaps value _ => Some value
  | _ => None
  end.

(** The instances the code itself builds: the sentinel [fail], and
    [succeed(v)] for some [v]. *)
Definition constructed (r : val) : Prop :=
  r = Notebook.fail \/ exists v, r = Notebook.succeed v.

(** ** Basic facts *)

Section MonadFacts.
Context {W A B C : Type}.

Lemma bind_ret_l (a : A) (k : A -> Py W B) (w : W) :
  bind (ret a) k w = k a w.
Proof. reflexivity. Qed.

Lemma bind_ret_r (c : Py W A) (w : W) : bind c ret w = c w.
Proof. unfold bind, ret. destruct (c w) as [[a | e] w']; reflexivity. Qed.

Lemma bind_raise (e : exn) (k : A -> Py W B) (w : W) :
  bind (raise e) k w = (Raise e, w).
Proof. reflexivity. Qed.

Lemma bind_assoc (c : Py W A) (k : A -> Py W B) (h : B -> Py W C) (w : W) :
  bind (bind c k) h w = bind c (fun a => bind (k a) h) w.
Proof. unfold bind. destruct (c w) as [[a | e] w']; reflexivity. Qed.

Lemma bind_ext (c : Py W A) (k k' : A -> Py W B) (w : W) :
  (forall a w', k a w' = k' a w') -> bind c k w = bind c k' w.
Proof.
  intros Hk. unfold bind. destruct (c w) as [[a | e] w']; [apply Hk | reflexivity].
Qed.
End MonadFacts.

Lemma exn_eqb_refl (e : exn) : exn_eqb e e = true.
Proof.
  destruct e; simpl; rewrite ?String.eqb_refl; reflexivity.
Qed.

(** Equal terms are equal for Python too, so every equation proved below
    with [=] also holds for [==]. *)
Lemma py_eq_refl (v : val) : py_eq v v = true.
Proof.
  induction v as [ | b | n | s | e | l | v IHv s IHs ]; simpl.
  - reflexivity.
  - destruct b; reflexivity.
  - apply Z.eqb_refl.
  - apply String.eqb_refl.
  - apply exn_eqb_refl.
  - apply String.eqb_refl.
  - rewrite IHv, IHs. reflexivity.
Qed.

(** The two modules build the same objects. *)
Lemma fail_same : Readme.fail = Notebook.fail.
Proof. reflexivity. Qed.

Lemma succeed_same (v : val) : Readme.succeed v = Notebook.succeed v.
Proof. reflexivity. Qed.

Section MethodFacts.
Context {W : Type}.
Implicit Types (v s self : val) (f g : pyfun W) (w : W).

(** The branch taken by each method, on an instance. *)
Lemma inside_success v s f w :
  truthy s = true ->
  Notebook.inside (VPerhaps v s) f w = bind (f v) (fun r => ret (Notebook.succeed r)) w.
Proof. intros Hs. simpl. rewrite Hs. reflexivity. Qed.

Lemma inside_failure v s f w :
  truthy s = false -> Notebook.inside (VPerhaps v s) f w = (Ok Notebook.fail, w).
Proof. intros Hs. simpl. rewrite Hs. reflexivity. Qed.

Lemma collapse_success v s w :
  truthy s = true -> Notebook.collapse (VPerhaps v s) w = (Ok v, w).
Proof. intros Hs. simpl. rewrite Hs. reflexivity. Qed.

Lemma collapse_failure v s w :
  truthy s = false -> Notebook.collapse (VPerhaps v s) w = (Ok Notebook.fail, w).
Proof. intros Hs. simpl. rewrite Hs. reflexivity. Qed.

(** [inside(f).collapse()] on a success is [f(self.value)]: the wrapper
    put on by [inside] is the one taken off by [collapse]. *)
Lemma and_then_success v s f w :
  truthy s = true -> Notebook.and_then (VPerhaps v s) f w = f v w.
Proof.
  intros Hs. unfold Notebook.and_then.
  unfold bind at 1. rewrite (inside_success _ _ _ _ Hs).
  unfold bind, ret. destruct (f v w) as [[r | e] w']; reflexivity.
Qed.

Lemma and_then_failure v s f w :
  truthy s = false -> Notebook.and_then (VPerhaps v s) f w = (Ok Notebook.fail, w).
Proof.
  intros Hs. unfold Notebook.and_then, bind.
  rewrite (inside_failure _ _ _ _ Hs). reflexivity.
Qed.

Lemma readme_and_then_success v s f w :
  truthy s = true -> Readme.and_then (VPerhaps v s) f w = f v w.
Proof. intros Hs. simpl. rewrite Hs. reflexivity. Qed.

Lemma readme_and_then_failure v s f w :
  truthy s = false -> Readme.and_then (VPerhaps v s) f w = (Ok Notebook.fail, w).
Proof. intros Hs. simpl. rewrite Hs. reflexivity. Qed.

(** The notebook's [and_then] and the README's are the same method. *)
Lemma and_then_same self f w :
  Notebook.and_then self f w = Readme.and_then self f w.
Proof.
  destruct self as [ | | | | | | v s]; try reflexivity.
  destruct (truthy s) eqn:Hs.
  - rewrite and_then_success, readme_and_then_success by assumption. reflexivity.
  - rewrite and_then_failure, readme_and_then_failure by assumption. reflexivity.
Qed.

Lemma inside_same self f w :
  Notebook.inside self f w = Readme.inside self f w.
Proof. reflexivity. Qed.
End MethodFacts.

(** The outputs recorded in the notebook for [even]:
    [Success(Success(2))], [Success(Failure)], then after [collapse]
    [Success(2)], [Failure], and [Failure] for [fail.collapse()]. *)
Example notebook_inside_even :
  Notebook.inside (W := unit) (Notebook.succeed (VInt 2)) Notebook.even tt
    = (Ok (Notebook.succeed (Notebook.succeed (VInt 2))), tt)
  /\ Notebook.inside (W := unit) (Notebook.succeed (VInt 3)) Notebook.even tt
     = (Ok (Notebook.succeed Notebook.fail), tt).
Proof. split; reflexivity. Qed.

Example notebook_inside_even_collapse :
  Notebook.and_then (W := unit) (Notebook.succeed (VInt 2)) Notebook.even tt
    = (Ok (Notebook.succeed (VInt 2)), tt)
  /\ Notebook.and_then (W := unit) (Notebook.succeed (VInt 3)) Notebook.even tt
     = (Ok Notebook.fail, tt)
  /\ Notebook.collapse (W := unit) Notebook.fail tt = (Ok Notebook.fail, tt).
Proof. repeat split. Qed.

(** The stub does count: on a success, one call is recorded. *)
Lemma counted_counts {W} (v : val) (f : pyfun W) (n : nat) (w : W) :
  fst (snd (Notebook.inside (Notebook.succeed v) (counted f) (n, w))) = S n.
Proof.
  simpl. unfold bind, counted, ret. simpl.
  destruct (f v w) as [[r | e] w']; reflexivity.
Qed.

(** ** Short-circuit on failure *)

(** C1, as stated, fails: [Perhaps(5, False).inside(identity)] and
    [Perhaps(5, False).and_then(succeed)] both return the sentinel
    [Perhaps(None, False)], which is not the failure they were applied to
    (neither as a term nor for Python's [==]). *)
Lemma C1_short_circuit_counterexample :
  Notebook.inside (W := unit) failure_with_payload (lift Readme.identity) tt
    = (Ok (VPerhaps VNone (VBool false)), tt)
  /\ Notebook.and_then (W := unit) failure_with_payload (lift Notebook.succeed) tt
    = (Ok (VPerhaps VNone (VBool false)), tt)
  /\ py_eq (VPerhaps VNone (VBool false)) failure_with_payload = false
  /\ Notebook.inside (W := unit) failure_with_payload (lift Readme.identity) tt
    <> (Ok failure_with_payload, tt).
Proof.
  repeat split; try reflexivity.
  intros H. discriminate H.
Qed.

(** C1 (amended): for every failure (an instance whose [success] is false)
    and every function [f], [inside] and [and_then] return the shared
    sentinel [fail] -- so the failure comes back unchanged when it is the
    sentinel -- and [f] is never invoked: the world is left as it was, the
    result is the same for every other function [g], and a call-counting
    stub records no call. *)
Theorem C1_short_circuit {W} (v s : val) (f g : pyfun W) (n : nat) (w : W) :
  truthy s = false ->
  (Notebook.inside (VPerhaps v s) f w = (Ok Notebook.fail, w)
   /\ Notebook.and_then (VPerhaps v s) f w = (Ok Notebook.fail, w)
   /\ Readme.and_then (VPerhaps v s) f w = (Ok Notebook.fail, w))
  /\ (Notebook.inside Notebook.fail f w = (Ok Notebook.fail, w)
      /\ Notebook.and_then Notebook.fail f w = (Ok Notebook.fail, w))
  /\ (Notebook.inside (VPerhaps v s) f w = Notebook.inside (VPerhaps v s) g w
      /\ Notebook.and_then (VPerhaps v s) f w = Notebook.and_then (VPerhaps v s) g w)
  /\ (Notebook.inside (VPerhaps v s) (counted f) (n, w) = (Ok Notebook.fail, (n, w))
      /\ Notebook.and_then (VPerhaps v s) (counted f) (n, w) = (Ok Notebook.fail, (n, w))).
Proof.
  intros Hs.
  split; [ | split; [ | split ] ].
  - split; [ | split ].
    + now apply inside_failure.
    + now apply and_then_failure.
    + now apply readme_and_then_failure.
  - split; reflexivity.
  - split.
    + now rewrite !inside_failure.
    + now rewrite !and_then_failure.
  - split.
    + now apply inside_failure.
    + now apply and_then_failure.
Qed.

Lemma C1_short_circuit_witness :
  truthy (VInt 0) = false
  /\ Notebook.inside (W := unit) (VPerhaps (VStr "lost") (VInt 0))
       (lift Notebook.succeed) tt = (Ok Notebook.fail, tt).
Proof.
  split; [ reflexivity | ].
  apply (C1_short_circuit (W := unit) (VStr "lost") (VInt 0)
           (lift Notebook.succeed) (lift Readme.identity) 0 tt).
  reflexivity.
Defined.

(** ** Monad laws *)

(** C2, as stated, fails: [Perhaps(5, False).and_then(succeed)] is the
    sentinel [Perhaps(None, False)], not [Perhaps(5, False)]. *)
Lemma C2_right_identity_counterexample :
  Notebook.and_then (W := unit) failure_with_payload (lift Notebook.succeed) tt
    = (Ok (VPerhaps VNone (VBool false)), tt)
  /\ Readme.and_then (W := unit) failure_with_payload (lift Readme.succeed) tt
    = (Ok (VPerhaps VNone (VBool false)), tt)
  /\ py_eq (VPerhaps VNone (VBool false)) failure_with_payload = false
  /\ Notebook.and_then (W := unit) failure_with_payload (lift Notebook.succeed) tt
    <> (Ok failure_with_payload, tt).
Proof.
  split; [ reflexivity | split; [ reflexivity | split; [ reflexivity | ] ] ].
  unfold failure_with_payload. rewrite and_then_failure by reflexivity.
  intros H. discriminate H.
Qed.

(** C2 (amended): for every instance [r] the code builds -- [succeed(v)] for
    any [v], or the sentinel [fail] -- [r.and_then(succeed)] equals [r], with
    either definition of [and_then]. *)
Theorem C2_right_identity {W} (r : val) (w : W) :
  constructed r ->
  Notebook.and_then r (lift Notebook.succeed) w = (Ok r, w)
  /\ Readme.and_then r (lift Readme.succeed) w = (Ok r, w).
Proof.
  intros [-> | [v ->]].
  - split; reflexivity.
  - split.
    + exact (and_then_success v (VBool true) (lift Notebook.succeed) w eq_refl).
    + exact (readme_and_then_success v (VBool true) (lift Readme.succeed) w eq_refl).
Qed.

Lemma C2_right_identity_witness :
  constructed (Notebook.succeed (VInt 3))
  /\ Notebook.and_then (W := unit) (Notebook.succeed (VInt 3))
       (lift Notebook.succeed) tt = (Ok (Notebook.succeed (VInt 3)), tt).
Proof.
  assert (Hc : constructed (Notebook.succeed (VInt 3))).
  { right. exists (VInt 3). reflexivity. }
  split; [ exact Hc | ].
  exact (proj1 (C2_right_identity (Notebook.succeed (VInt 3)) tt Hc)).
Defined.

(** C3: [r.and_then(f).and_then(g)] equals
    [r.and_then(lambda v: f(v).and_then(g))], for every [r], [f] and [g] and
    for both definitions of [and_then]: same value or same exception, same
    effects.  Nothing is asked of [f] and [g]: where [f] returns something
    that is not a [Perhaps], both sides raise the same [AttributeError]. *)
Theorem C3_associativity {W} (r : val) (f g : pyfun W) (w : W) :
  (let* x := Notebook.and_then r f in Notebook.and_then x g) w
    = Notebook.and_then r (fun v => let* y := f v in Notebook.and_then y g) w
  /\ (let* x := Readme.and_then r f in Readme.and_then x g) w
    = Readme.and_then r (fun v => let* y := f v in Readme.and_then y g) w.
Proof.
  destruct r as [ | | | | | | v s]; try (split; reflexivity).
  destruct (truthy s) eqn:Hs; split.
  - unfold bind at 1.
    rewrite !and_then_success by assumption. reflexivity.
  - unfold bind at 1.
    rewrite !readme_and_then_success by assumption. reflexivity.
  - unfold bind at 1.
    rewrite !and_then_failure by assumption. reflexivity.
  - unfold bind at 1.
    rewrite !readme_and_then_failure by assumption. reflexivity.
Qed.

(** ** [collapse] *)

(** C4, as stated, fails in its last part: [Perhaps(5, False).collapse()] is
    the sentinel [Perhaps(None, False)], not [Perhaps(5, False)]. *)
Lemma C4_collapse_counterexample :
  Notebook.collapse (W := unit) failure_with_payload tt
    = (Ok (VPerhaps VNone (VBool false)), tt)
  /\ Readme.collapse (W := unit) failure_with_payload tt
    = (Ok (VPerhaps VNone (VBool false)), tt)
  /\ py_eq (VPerhaps VNone (VBool false)) failure_with_payload = false
  /\ Notebook.collapse (W := unit) failure_with_payload tt
    <> (Ok failure_with_payload, tt).
Proof.
  repeat split; try reflexivity.
  intros H; discriminate H.
Qed.

(** C4 (amended): [collapse] removes exactly one level of nesting:
    [succeed(succeed(x)).collapse()] is [succeed(x)],
    [succeed(fail).collapse()] is [fail], and the collapse of a failure is
    the sentinel [fail] (that failure itself when it is the sentinel). *)
Theorem C4_collapse_one_level {W} (x v s : val) (w : W) :
  truthy s = false ->
  Notebook.collapse (Notebook.succeed (Notebook.succeed x)) w
    = (Ok (Notebook.succeed x), w)
  /\ Notebook.collapse (Notebook.succeed Notebook.fail) w = (Ok Notebook.fail, w)
  /\ Notebook.collapse (VPerhaps v s) w = (Ok Notebook.fail, w)
  /\ Notebook.collapse Notebook.fail w = (Ok Notebook.fail, w).
Proof.
  intros Hs. repeat split.
  cbn [Notebook.collapse]. rewrite Hs. reflexivity.
Qed.

Lemma C4_collapse_one_level_witness :
  truthy (VBool false) = false
  /\ Notebook.collapse (W := unit)
       (Notebook.succeed (Notebook.succeed (VInt 10))) tt
     = (Ok (Notebook.succeed (VInt 10)), tt).
Proof.
  split; [ reflexivity | ].
  apply (C4_collapse_one_level (W := unit) (VInt 10) VNone (VBool false) tt).
  reflexivity.
Defined.

(** C6: the two definitions of [collapse] -- the notebook's own branch and
    the README's [self.and_then(identity)] -- return the same result (value
    or exception, and world) on every object; and within the notebook's
    class, [collapse()] is [and_then(identity)] as well. *)
Theorem C6_collapse_definitions_agree {W} (self v s : val) (w : W) :
  Notebook.collapse self w = Readme.collapse self w
  /\ Notebook.collapse (VPerhaps v s) w
     = Notebook.and_then (VPerhaps v s) (lift Readme.identity) w.
Proof.
  split.
  - destruct self; reflexivity.
  - case_eq (truthy s); intros Hs.
    + rewrite and_then_success by exact Hs. now apply collapse_success.
    + rewrite and_then_failure by exact Hs. now apply collapse_failure.
Qed.

(** C9: on a success, [collapse] returns the stored value as it is, whatever
    it is; when the value is not a [Perhaps] (here: has no [value]
    attribute), the result is not one either. *)
Theorem C9_collapse_returns_payload {W} (v s : val) (w : W) :
  truthy s = true ->
  Notebook.collapse (VPerhaps v s) w = (Ok v, w)
  /\ Readme.collapse (VPerhaps v s) w = (Ok v, w)
  /\ (value_of v = None ->
      exists x, Notebook.collapse (VPerhaps v s) w = (Ok x, w) /\ value_of x = None).
Proof.
  intros Hs.
  assert (Hn : Notebook.collapse (VPerhaps v s) w = (Ok v, w))
    by now apply collapse_success.
  split; [ exact Hn | split ].
  - cbn. now rewrite Hs.
  - intros Hv. exists v. auto.
Qed.

Lemma C9_collapse_returns_payload_witness :
  truthy (VBool true) = true
  /\ Notebook.collapse (W := unit) (Notebook.succeed (VInt 3)) tt = (Ok (VInt 3), tt).
Proof.
  split; [ reflexivity | ].
  apply (C9_collapse_returns_payload (W := unit) (VInt 3) (VBool true) tt).
  reflexivity.
Defined.

(** ** Functor identity *)

(** C7, as stated, fails: [Perhaps(5, False).inside(identity)] is the
    sentinel [Perhaps(None, False)], not [Perhaps(5, False)]. *)
Lemma C7_functor_identity_counterexample :
  Notebook.inside (W := unit) failure_with_payload (lift Readme.identity) tt
    = (Ok (VPerhaps VNone (VBool false)), tt)
  /\ py_eq (VPerhaps VNone (VBool false)) failure_with_payload = false
  /\ Notebook.inside (W := unit) failure_with_payload (lift Readme.identity) tt
    <> (Ok failure_with_payload, tt).
Proof.
  split; [ | split ]; [ reflexivity | reflexivity | ].
  unfold failure_with_payload, Notebook.Perhaps.
  rewrite inside_failure by reflexivity.
  intros H; discriminate H.
Qed.

(** C7 (amended): for every instance [r] the code builds -- [succeed(v)] for
    any [v], or the sentinel [fail] -- [r.inside(identity)] equals [r]. *)
Theorem C7_functor_identity {W} (r : val) (w : W) :
  constructed r ->
  Notebook.inside r (lift Readme.identity) w = (Ok r, w)
  /\ Readme.inside r (lift Readme.identity) w = (Ok r, w).
Proof.
  intros Hr.
  enough (H : Notebook.inside r (lift Readme.identity) w = (Ok r, w)).
  { split; [ exact H | rewrite <- H; symmetry; apply inside_same ]. }
  destruct Hr as [Hf | [v Hv]]; subst r; reflexivity.
Qed.

Lemma C7_functor_identity_witness :
  constructed Notebook.fail
  /\ Notebook.inside (W := unit) Notebook.fail (lift Readme.identity) tt
     = (Ok Notebook.fail, tt).
Proof.
  assert (Hc : constructed Notebook.fail) by (left; reflexivity).
  split; [ exact Hc | ].
  exact (proj1 (C7_functor_identity Notebook.fail tt Hc)).
Defined.

(** ** Failures are normalised to the sentinel *)

(** C8: on an instance whose [success] is [False] (or any other false
    object), whatever its [value] holds, [inside(f)], [and_then(f)] and
    [collapse()] all return the sentinel [Perhaps(None, False)]; what the
    failure stored is gone.  This holds for both definitions of [and_then]
    and of [collapse]. *)
Theorem C8_failure_normalised {W} (v s : val) (f : pyfun W) (w : W) :
  truthy s = false ->
  Notebook.inside (VPerhaps v s) f w = (Ok (VPerhaps VNone (VBool false)), w)
  /\ Notebook.and_then (VPerhaps v s) f w = (Ok (VPerhaps VNone (VBool false)), w)
  /\ Notebook.collapse (VPerhaps v s) w = (Ok (VPerhaps VNone (VBool false)), w)
  /\ Readme.and_then (VPerhaps v s) f w = (Ok (VPerhaps VNone (VBool false)), w)
  /\ Readme.collapse (VPerhaps v s) w = (Ok (VPerhaps VNone (VBool false)), w).
Proof.
  intros Hs.
  pose proof (inside_failure v s f w Hs) as Hi.
  pose proof (and_then_failure v s f w Hs) as Ha.
  pose proof (collapse_failure v s w Hs) as Hc.
  pose proof (readme_and_then_failure v s f w Hs) as Hr.
  pose proof (readme_and_then_failure v s (lift Readme.identity) w Hs) as Hrc.
  repeat split; assumption.
Qed.

Lemma C8_failure_normalised_witness :
  truthy (VBool false) = false
  /\ Notebook.inside (W := unit) failure_with_payload (lift Notebook.succeed) tt
     = (Ok (VPerhaps VNone (VBool false)), tt)
  /\ value_of (VPerhaps VNone (VBool false)) <> value_of failure_with_payload.
Proof.
  split; [ reflexivity | split ].
  - apply (C8_failure_normalised (W := unit) (VInt 5) (VBool false)
             (lift Notebook.succeed) tt).
    reflexivity.
  - intros H; discriminate H.
Defined.

(** ** [attempt] *)

(** C5, as stated, fails in its second part: when the called function
    raises [ZeroDivisionError], [attempt] returns the sentinel
    [Perhaps(None, False)]; its [value] is [None], which is neither the
    exception nor a string. *)
Lemma C5_attempt_counterexample :
  always_raises (W := unit) zero_division [VInt 10; VInt 0] [] tt
    = (Raise zero_division, tt)
  /\ Notebook.attempt (W := unit) (always_raises zero_division) [VInt 10; VInt 0] [] tt
     = (Ok (VPerhaps VNone (VBool false)), tt)
  /\ value_of (VPerhaps VNone (VBool false)) <> Some (VExc zero_division)
  /\ (forall m : string, value_of (VPerhaps VNone (VBool false)) <> Some (VStr m)).
Proof.
  split; [ reflexivity | split; [ reflexivity | split ] ].
  - intros H; discriminate H.
  - intros m H; discriminate H.
Qed.

(** C5 (amended): [attempt(f, ...)] returns [succeed(v)] whenever the call
    of [f] on the arguments completes normally with value [v], and whenever
    the call raises it returns the sentinel [fail], which keeps nothing of
    the error.  Either way [attempt] itself returns normally, and what [f]
    did to the world stays done. *)
Theorem C5_attempt {W} (f : pyfun_star W) (args : list val)
    (kwargs : list (string * val)) (w w' : W) (o : outcome val) :
  f args kwargs w = (o, w') ->
  Notebook.attempt f args kwargs w
    = (Ok (match o with
           | Ok v => Notebook.succeed v
           | Raise _ => Notebook.fail
           end), w').
Proof.
  intros Hf. unfold Notebook.attempt, try_except, bind.
  rewrite Hf. destruct o as [v | e]; reflexivity.
Qed.

Lemma C5_attempt_witness :
  first_arg (W := unit) [VInt 7] [] tt = (Ok (VInt 7), tt)
  /\ Notebook.attempt (W := unit) first_arg [VInt 7] [] tt
     = (Ok (Notebook.succeed (VInt 7)), tt).
Proof.
  split; [ reflexivity | ].
  apply (C5_attempt (W := unit) first_arg [VInt 7] [] tt tt (Ok (VInt 7))).
  reflexivity.
Defined.

(** ** The [failure] property *)

(** No cell of the notebook binds a global [success]. *)
Lemma success_unbound : Notebook.globals !! "success" = None.
Proof. reflexivity. Qed.

(** The notebook's property reads the bare name [success], so on every
    instance it raises [NameError] and never looks at the instance. *)
Lemma notebook_failure_raises {W} (v s : val) (w : W) :
  Notebook.failure (VPerhaps v s) w = (Raise (NameError "success"), w).
Proof.
  unfold Notebook.failure, Notebook.load_global.
  rewrite success_unbound. reflexivity.
Qed.

(** The README's property reads [self.success]: it returns the negation of
    the tag and never raises. *)
Lemma readme_failure_negates {W} (v s : val) (w : W) :
  Readme.failure (VPerhaps v s) w = (Ok (VBool (negb (truthy s))), w).
Proof. reflexivity. Qed.

(** C10 fails on the notebook's class: [succeed(3).failure] and
    [fail.failure] raise [NameError: name 'success' is not defined], where
    the README's class returns [False] and [True]. *)
Theorem C10_failure_property_raises :
  Notebook.failure (W := unit) (Notebook.succeed (VInt 3)) tt
    = (Raise (NameError "success"), tt)
  /\ Notebook.failure (W := unit) Notebook.fail tt
     = (Raise (NameError "success"), tt)
  /\ Readme.failure (W := unit) (Readme.succeed (VInt 3)) tt = (Ok (VBool false), tt)
  /\ Readme.failure (W := unit) Readme.fail tt = (Ok (VBool true), tt).
Proof.
  split; [ | split; [ | split ] ].
  - apply notebook_failure_raises.
  - apply notebook_failure_raises.
  - reflexivity.
  - reflexivity.
Qed.

(** * Further properties of the code *)

(** ** Laws of [inside] and [and_then] *)

(** X1: [inside] composes: [r.inside(f).inside(g)] is
    [r.inside(lambda v: g(f(v)))], for every object [r] and all functions
    [f] and [g], whatever they do and whether or not they raise. *)
Theorem X1_inside_composition {W} (r : val) (f g : pyfun W) (w : W) :
  (let* x := Notebook.inside r f in Notebook.inside x g) w
  = Notebook.inside r (fun v => let* y := f v in g y) w.
Proof.
  destruct r as [ | | | | | | v s]; try reflexivity.
  cbn [Notebook.inside]. unfold bind at 1.
  destruct (truthy s); [ | reflexivity ].
  unfold bind, ret. destruct (f v w) as [[y | e] w1]; [ | reflexivity ].
  cbn. unfold bind, ret. destruct (g y w1) as [[z | e] w2]; reflexivity.
Qed.

(** X2: left identity: [succeed(v).and_then(f)] is [f(v)] -- same result or
    exception, same effects -- for both definitions of [and_then]. *)
Theorem X2_left_identity {W} (v : val) (f : pyfun W) (w : W) :
  Notebook.and_then (Notebook.succeed v) f w = f v w
  /\ Readme.and_then (Readme.succeed v) f w = f v w.
Proof.
  split.
  - exact (and_then_success v (VBool true) f w eq_refl).
  - reflexivity.
Qed.

(** X3: the notebook's [and_then] ([self.inside(f).collapse()]) and the
    README's (its own branch on [self.success]) return the same outcome on
    every object, for every function. *)
Theorem X3_and_then_definitions_agree {W} (self : val) (f : pyfun W) (w : W) :
  Notebook.and_then self f w = Readme.and_then self f w.
Proof.
  destruct self as [ | | | | | | v s]; try reflexivity.
  case_eq (truthy s); intros Hs.
  - now rewrite and_then_success, readme_and_then_success.
  - now rewrite and_then_failure, readme_and_then_failure.
Qed.

(** X4: [inside] never leaves the class and keeps the shape: when it returns,
    the result is [succeed(x)] for some [x] or the sentinel [fail], and it is
    [fail] exactly when the instance it was called on is a failure. *)
Theorem X4_inside_keeps_shape {W} (v s r' : val) (f : pyfun W) (w w' : W) :
  Notebook.inside (VPerhaps v s) f w = (Ok r', w') ->
  constructed r' /\ (r' = Notebook.fail <-> truthy s = false).
Proof.
  cbn [Notebook.inside]. destruct (truthy s).
  - unfold bind, ret. destruct (f v w) as [[y | e] w1]; intros H; inversion H; subst.
    split; [ right; now exists y | ].
    split; intros H'; discriminate H'.
  - intros H; inversion H; subst. split; [ now left | tauto ].
Qed.

Lemma X4_inside_keeps_shape_witness :
  Notebook.inside (W := unit) (Notebook.succeed (VInt 2)) Notebook.even tt
    = (Ok (Notebook.succeed (Notebook.succeed (VInt 2))), tt)
  /\ constructed (Notebook.succeed (Notebook.succeed (VInt 2))).
Proof.
  split; [ reflexivity | ].
  apply (X4_inside_keeps_shape (W := unit) (VInt 2) (VBool true)
           (Notebook.succeed (Notebook.succeed (VInt 2))) Notebook.even tt tt).
  reflexivity.
Defined.

(** X5: a chain stays inside the class: when [f] only ever returns
    [succeed(x)] or [fail], so does [r.and_then(f)] on every instance [r]. *)
Theorem X5_and_then_keeps_constructed {W} (v s r' : val) (f : pyfun W) (w w' : W) :
  (forall x w0 y w1, f x w0 = (Ok y, w1) -> constructed y) ->
  Notebook.and_then (VPerhaps v s) f w = (Ok r', w') ->
  constructed r'.
Proof.
  intros Hf. case_eq (truthy s); intros Hs.
  - rewrite and_then_success by exact Hs. apply Hf.
  - rewrite and_then_failure by exact Hs. intros H; inversion H. now left.
Qed.

Lemma even_constructed {W} (x : val) (w0 : W) (y : val) (w1 : W) :
  Notebook.even x w0 = (Ok y, w1) -> constructed y.
Proof.
  unfold Notebook.even. destruct (as_int x) as [z | ]; [ | discriminate ].
  destruct (z mod 2 =? 0)%Z; intros H; inversion H; subst.
  - right. now exists x.
  - now left.
Qed.

Lemma X5_and_then_keeps_constructed_witness :
  constructed Notebook.fail.
Proof.
  apply (X5_and_then_keeps_constructed (W := unit) (VInt 3) (VBool true)
           Notebook.fail Notebook.even tt tt).
  - apply even_constructed.
  - reflexivity.
Defined.

(** X6: [attempt] contains every exception: whatever [f] does, [attempt]
    returns normally, and what it returns is [succeed(x)] for some [x] or the
    sentinel [fail]. *)
Theorem X6_attempt_never_raises {W} (f : pyfun_star W) (args : list val)
    (kwargs : list (string * val)) (w : W) :
  exists r w', Notebook.attempt f args kwargs w = (Ok r, w') /\ constructed r.
Proof.
  unfold Notebook.attempt, try_except, bind, ret.
  destruct (f args kwargs w) as [[x | e] w1].
  - exists (Notebook.succeed x), w1. split; [ reflexivity | right; now exists x ].
  - exists Notebook.fail, w1. split; [ reflexivity | now left ].
Qed.

(** X7: the README's [always_fail] is a zero for [and_then]: on every
    instance, success or failure, [r.and_then(always_fail)] is [fail]; with
    [inside] instead, a success gives the nested [Success(Failure)]. *)
Theorem X7_always_fail_zero {W} (v s : val) (w : W) :
  Readme.and_then (VPerhaps v s) ReadmeDemo.always_fail w = (Ok Readme.fail, w)
  /\ Notebook.and_then (VPerhaps v s) ReadmeDemo.always_fail w = (Ok Readme.fail, w)
  /\ Readme.inside (Readme.succeed v) ReadmeDemo.always_fail w
     = (Ok (Readme.succeed Readme.fail), w).
Proof.
  assert (H : Readme.and_then (VPerhaps v s) ReadmeDemo.always_fail w
              = (Ok Readme.fail, w)).
  { cbn. now destruct (truthy s). }
  split; [ exact H | split; [ | reflexivity ] ].
  rewrite <- H. destruct (truthy s) eqn:Hs.
  - now rewrite and_then_success, readme_and_then_success.
  - now rewrite and_then_failure, readme_and_then_failure.
Qed.


(** ** Printing *)

(** What the notebook shows for [print(fail)], [print(succeed(3))] and the
    two nested results of [inside(even)]. *)
Example notebook_printed :
  Render.str label_str Notebook.fail = "Failure"
  /\ Render.str label_str (Notebook.succeed (VInt 3)) = "Success(3)"
  /\ Render.str label_str (Notebook.succeed (Notebook.succeed (VInt 2)))
     = "Success(Success(2))"
  /\ Render.str label_str (Notebook.succeed Notebook.fail) = "Success(Failure)".
Proof. repeat split. Qed.

(** X9: an instance prints as [Failure] exactly when its [success] is false,
    whatever its [value] holds -- and that is exactly when the README's
    [failure] property is [True]. *)
Theorem X9_prints_Failure_iff {W} (str_atom : val -> string) (v s : val) (w : W) :
  (Render.str str_atom (VPerhaps v s) = "Failure" <-> truthy s = false)
  /\ (Render.str str_atom (VPerhaps v s) = "Failure"
      <-> Readme.failure (VPerhaps v s) w = (Ok (VBool true), w)).
Proof.
  cbn [Render.str Readme.failure]. unfold ret.
  destruct (truthy s); cbn; repeat split; intros H; try reflexivity; discriminate H.
Qed.

(** ** Division by zero, three ways *)

Section ConsoleFacts.
Variable int_of_str : string -> option Z.
Variable repr_str : string -> string.
Variable float_quot : Z -> Z -> option string.
Variable str_atom : val -> string.

Local Abbreviation main_v1 := (Console.main_v1 int_of_str repr_str float_quot str_atom).
Local Abbreviation main_v2 := (Console.main_v2 int_of_str repr_str float_quot str_atom).
Local Abbreviation main_v3 := (Console.main_v3 int_of_str repr_str float_quot str_atom).

Lemma main_v2_as_v1 (w : Console.console) : main_v2 w = main_v1 w.
Proof.
  unfold Console.main_v1, Console.main_v2, bind.
  destruct (Console.read_numbers int_of_str repr_str w) as [[[a b] | e] w1]; [ | reflexivity ].
  cbn [fst snd].
  unfold Console.catch_locally, Console.catch_nonlocally, Console.try_except_class,
    Console.truediv, bind, raise, ret.
  destruct (b =? 0)%Z; [ reflexivity | ].
  destruct (float_quot a b) as [q | ]; reflexivity.
Qed.

Lemma main_v3_as_v1 (w : Console.console) : main_v3 w = main_v1 w.
Proof.
  unfold Console.main_v1, Console.main_v3, bind.
  destruct (Console.read_numbers int_of_str repr_str w) as [[[a b] | e] w1]; [ | reflexivity ].
  cbn [fst snd].
  unfold Console.catch_locally, Console.div, Console.try_except_class,
    Console.truediv, bind, raise, ret.
  destruct (b =? 0)%Z; [ reflexivity | ].
  destruct (float_quot a b) as [q | ]; reflexivity.
Qed.

Lemma read_numbers_ok (w : Console.console) (l1 l2 : string) (rest : list string)
    (a b : Z) :
  Console.stdin w = l1 :: l2 :: rest ->
  int_of_str l1 = Some a ->
  int_of_str l2 = Some b ->
  Console.read_numbers int_of_str repr_str w
  = (Ok (a, b),
     {| Console.stdin := rest;
        Console.stdout := (Console.stdout w ++ "Number 1: ") ++ "Number 2: " |}).
Proof.
  intros Hin Ha Hb.
  unfold Console.read_numbers, bind, Console.py_input, Console.py_int.
  rewrite Hin. rewrite Ha. cbn. rewrite Hb. reflexivity.
Qed.

(** X10: the three programs cannot be told apart: on every terminal, for
    whatever is typed, [main_v1] (error caught where it happens), [main_v2]
    (exception caught by the caller) and [main_v3] (success flag) write the
    same text, read the same lines and end the same way. *)
Theorem X10_mains_agree (w : Console.console) :
  main_v1 w = main_v2 w /\ main_v2 w = main_v3 w.
Proof.
  rewrite main_v2_as_v1, main_v3_as_v1. split; reflexivity.
Qed.

(** X11: when the second number typed is zero, each of the three programs
    prints [Something bad happened] after the two prompts and returns
    normally: the division error never escapes. *)
Theorem X11_mains_division_by_zero (w : Console.console) (l1 l2 : string)
    (rest : list string) (a : Z) :
  Console.stdin w = l1 :: l2 :: rest ->
  int_of_str l1 = Some a ->
  int_of_str l2 = Some 0%Z ->
  let after :=
    {| Console.stdin := rest;
       Console.stdout := ((Console.stdout w ++ "Number 1: ") ++ "Number 2: ")
                         ++ "Something bad happened" ++ Console.newline |} in
  main_v1 w = (Ok VNone, after)
  /\ main_v2 w = (Ok VNone, after)
  /\ main_v3 w = (Ok VNone, after).
Proof.
  intros Hin Ha Hb after.
  rewrite main_v2_as_v1, main_v3_as_v1.
  enough (H : main_v1 w = (Ok VNone, after)) by (repeat split; exact H).
  unfold Console.main_v1, bind.
  rewrite (read_numbers_ok w l1 l2 rest a 0 Hin Ha Hb).
  reflexivity.
Qed.

(** X12: when the second number is not zero and the quotient fits a float,
    each of the three programs prints [And the answer is: ] followed by the
    quotient, and returns normally. *)
Theorem X12_mains_answer (w : Console.console) (l1 l2 : string)
    (rest : list string) (a b : Z) (q : string) :
  Console.stdin w = l1 :: l2 :: rest ->
  int_of_str l1 = Some a ->
  int_of_str l2 = Some b ->
  b <> 0%Z ->
  float_quot a b = Some q ->
  let after :=
    {| Console.stdin := rest;
       Console.stdout := ((Console.stdout w ++ "Number 1: ") ++ "Number 2: ")
                         ++ ("And the answer is: " ++ str_atom (VObj q))
                         ++ Console.newline |} in
  main_v1 w = (Ok VNone, after)
  /\ main_v2 w = (Ok VNone, after)
  /\ main_v3 w = (Ok VNone, after).
Proof.
  intros Hin Ha Hb Hnz Hq after.
  rewrite main_v2_as_v1, main_v3_as_v1.
  enough (H : main_v1 w = (Ok VNone, after)) by (repeat split; exact H).
  unfold Console.main_v1, bind.
  rewrite (read_numbers_ok w l1 l2 rest a b Hin Ha Hb).
  cbn [fst snd].
  unfold Console.catch_locally, Console.try_except_class, Console.truediv.
  apply Z.eqb_neq in Hnz. rewrite Hnz, Hq. reflexivity.
Qed.

(** X13: none of the three programs guards the reading of the numbers: when
    the first line typed is not an integer, each raises [ValueError] after
    writing the first prompt only, and the second line is left unread. *)
Theorem X13_mains_bad_number (w : Console.console) (l1 : string)
    (rest : list string) :
  Console.stdin w = l1 :: rest ->
  int_of_str l1 = None ->
  let after :=
    {| Console.stdin := rest;
       Console.stdout := Console.stdout w ++ "Number 1: " |} in
  let err := PyError "ValueError"
               ("invalid literal for int() with base 10: " ++ repr_str l1) in
  main_v1 w = (Raise err, after)
  /\ main_v2 w = (Raise err, after)
  /\ main_v3 w = (Raise err, after).
Proof.
  intros Hin Ha after err.
  rewrite main_v2_as_v1, main_v3_as_v1.
  enough (H : main_v1 w = (Raise err, after)) by (repeat split; exact H).
  unfold Console.main_v1, Console.read_numbers, bind, Console.py_input, Console.py_int.
  rewrite Hin, Ha. reflexivity.
Qed.

End ConsoleFacts.

Lemma X11_mains_division_by_zero_witness :
  fst (Console.main_v3 decimal_int quoted whole_quot label_str
         {| Console.stdin := ["10"; "0"]; Console.stdout := "" |})
  = Ok VNone.
Proof.
  pose proof (X11_mains_division_by_zero decimal_int quoted whole_quot label_str
                {| Console.stdin := ["10"; "0"]; Console.stdout := "" |}
                "10" "0" [] 10 eq_refl eq_refl eq_refl) as H.
  cbv zeta in H. destruct H as [_ [_ H3]].
  rewrite H3. reflexivity.
Defined.

Lemma X12_mains_answer_witness :
  Console.main_v1 decimal_int quoted whole_quot label_str
    {| Console.stdin := ["10"; "2"]; Console.stdout := "" |}
  = (Ok VNone,
     {| Console.stdin := [];
        Console.stdout := "Number 1: Number 2: And the answer is: 5.0"
                          ++ Console.newline |}).
Proof.
  assert (Hnz : 2%Z <> 0%Z) by discriminate.
  pose proof (X12_mains_answer decimal_int quoted whole_quot label_str
                {| Console.stdin := ["10"; "2"]; Console.stdout := "" |}
                "10" "2" [] 10 2 "5.0" eq_refl eq_refl eq_refl Hnz eq_refl) as H.
  cbv zeta in H. destruct H as [H1 _].
  rewrite H1. reflexivity.
Defined.

Lemma X13_mains_bad_number_witness :
  fst (Console.main_v2 decimal_int quoted whole_quot label_str
         {| Console.stdin := ["ten"; "2"]; Console.stdout := "" |})
  = Raise (PyError "ValueError" "invalid literal for int() with base 10: 'ten'").
Proof.
  pose proof (X13_mains_bad_number decimal_int quoted whole_quot label_str
                {| Console.stdin := ["ten"; "2"]; Console.stdout := "" |}
                "ten" ["2"] eq_refl eq_refl) as H.
  cbv zeta in H. destruct H as [_ [H2 _]].
  rewrite H2. reflexivity.
Defined.

(** ** [div], with a flag and with [Perhaps] *)

(** X14: the [Perhaps] returned by the later [div] is the pair returned by
    the first one, made into an object: [Perhaps(result, success)] for the
    [success, result] of the flag version, with the same exceptions. *)
Theorem X14_div_flag_as_Perhaps {W} (float_quot : Z -> Z -> option string)
    (a b : Z) (w : W) :
  PerhapsDemo.div float_quot a b w
  = (let* sr := Console.div float_quot a b in
     ret (Notebook.Perhaps (snd sr) (fst sr))) w.
Proof.
  unfold PerhapsDemo.div, Console.div, Console.try_except_class, Console.truediv,
    bind, ret, raise.
  destruct (b =? 0)%Z; [ reflexivity | ].
  destruct (float_quot a b); reflexivity.
Qed.

(** X15: [div] with [Perhaps] turns the division by zero into the sentinel:
    it returns [fail] exactly when [b] is zero, and the only exception it can
    raise is the [OverflowError] of a quotient too large for a float, never
    [ZeroDivisionError]. *)
Theorem X15_div_fail_iff_zero {W} (float_quot : Z -> Z -> option string)
    (a b : Z) (w : W) :
  (PerhapsDemo.div float_quot a b w = (Ok Notebook.fail, w) <-> b = 0%Z)
  /\ (forall e w', PerhapsDemo.div float_quot a b w = (Raise e, w') ->
        Console.exn_class e = "OverflowError").
Proof.
  unfold PerhapsDemo.div, Console.truediv, bind, ret, raise.
  destruct (Z.eqb_spec b 0) as [Hb | Hb].
  - split; [ tauto | intros e w' H; discriminate H ].
  - destruct (float_quot a b) as [q | ]; split.
    + split; [ intros H; discriminate H | contradiction ].
    + intros e w' H; discriminate H.
    + split; [ intros H; discriminate H | contradiction ].
    + intros e w' H. inversion H. reflexivity.
Qed.

(** ** The configuration pipeline *)

Lemma bind_ok {W A B} (c : Py W A) (k : A -> Py W B) (w w' : W) (a : A) :
  c w = (Ok a, w') -> bind c k w = k a w'.
Proof. intros H. unfold bind. now rewrite H. Qed.

Lemma bind_raised {W A B} (c : Py W A) (k : A -> Py W B) (w w' : W) (e : exn) :
  c w = (Raise e, w') -> bind c k w = (Raise e, w').
Proof. intros H. unfold bind. now rewrite H. Qed.

Lemma and_then_succeed {W} (v : val) (f : pyfun W) (w : W) :
  Notebook.and_then (Notebook.succeed v) f w = f v w.
Proof. exact (and_then_success v (VBool true) f w eq_refl). Qed.

Lemma and_then_fail {W} (f : pyfun W) (w : W) :
  Notebook.and_then Notebook.fail f w = (Ok Notebook.fail, w).
Proof. reflexivity. Qed.

(** On an instance, [inside(f)] followed by [collapse()] and then the rest
    of a chain is [and_then(f)] followed by the rest. *)
Lemma inside_collapse_then {W} (r : val) (f : pyfun W) (k : pyfun W) (w : W) :
  constructed r ->
  (let* x := Notebook.inside r f in let* y := Notebook.collapse x in k y) w
  = (let* y := Notebook.and_then r f in k y) w.
Proof.
  intros [-> | [v ->]]; unfold Notebook.and_then; cbn -[Notebook.inside Notebook.collapse];
    now rewrite bind_assoc.
Qed.

Lemma bind_ext_on {W A B} (c : Py W A) (k k' : A -> Py W B) (w : W) :
  (forall a w', c w = (Ok a, w') -> k a w' = k' a w') ->
  bind c k w = bind c k' w.
Proof.
  intros Hk. unfold bind.
  destruct (c w) as [[a | e] w1]; [ now apply Hk | reflexivity ].
Qed.

Lemma and_then_constructed {W} (r r' : val) (f : pyfun W) (w w' : W) :
  (forall x w0 y w1, f x w0 = (Ok y, w1) -> constructed y) ->
  constructed r ->
  Notebook.and_then r f w = (Ok r', w') ->
  constructed r'.
Proof.
  intros Hf [-> | [v ->]].
  - rewrite and_then_fail. intros H; inversion H. now left.
  - rewrite and_then_succeed. apply Hf.
Qed.

Lemma attempt_returns {W} (f : pyfun_star W) (args : list val)
    (kwargs : list (string * val)) (w : W) :
  exists r w', Notebook.attempt f args kwargs w = (Ok r, w') /\ constructed r.
Proof.
  unfold Notebook.attempt, try_except, bind, ret.
  destruct (f args kwargs w) as [[x | e] w1]; eexists; eexists;
    (split; [ reflexivity | ]).
  - right. now exists x.
  - now left.
Qed.

Section PipelineFacts.
Context {W : Type}.
Variable isfile : pyfun W.
Variable open_read : val -> Py W string.
Variable safe_load : pyfun W.
Variable subscript : val -> string -> Py W val.
Variable Person : val -> val -> val.

Local Abbreviation ensure_path := (Pipeline.ensure_path isfile).
Local Abbreviation read_content := (Pipeline.read_content open_read).
Local Abbreviation parse_yaml := (Pipeline.parse_yaml safe_load).
Local Abbreviation load_person := (Pipeline.load_person subscript Person).
Local Abbreviation process :=
  (Pipeline.process isfile open_read safe_load subscript Person).
Local Abbreviation process_and_then :=
  (Pipeline.process_and_then isfile open_read safe_load subscript Person).

(** Every step of the pipeline returns [succeed(x)] or [fail]. *)
Lemma ensure_path_constructed (path r : val) (w w' : W) :
  ensure_path path w = (Ok r, w') -> constructed r.
Proof.
  unfold Pipeline.ensure_path, bind, ret.
  destruct (isfile path w) as [[b | e] w1]; intros H; inversion H.
  destruct (truthy b); [ right; now exists path | now left ].
Qed.

Lemma read_content_constructed (path r : val) (w w' : W) :
  read_content path w = (Ok r, w') -> constructed r.
Proof.
  unfold Pipeline.read_content, bind, ret.
  destruct (open_read path w) as [[t | e] w1]; intros H; inversion H.
  right. now eexists.
Qed.

Lemma parse_yaml_constructed (content r : val) (w w' : W) :
  parse_yaml content w = (Ok r, w') -> constructed r.
Proof.
  unfold Pipeline.parse_yaml, Notebook.attempt, try_except, bind, ret, positional1.
  destruct (safe_load content w) as [[c | e] w1]; intros H; inversion H.
  - right. now eexists.
  - now left.
Qed.

Lemma process_same (path : val) (w : W) :
  process path w = process_and_then path w.
Proof.
  unfold Pipeline.process, Pipeline.process_and_then.
  rewrite (inside_collapse_then (Notebook.succeed path)) by (right; now eexists).
  apply bind_ext_on. intros r2 w2 H2.
  assert (C2 : constructed r2).
  { rewrite and_then_succeed in H2. eapply ensure_path_constructed, H2. }
  rewrite (inside_collapse_then r2) by exact C2.
  apply bind_ext_on. intros r3 w3 H3.
  assert (C3 : constructed r3).
  { eapply and_then_constructed; [ | exact C2 | exact H3 ].
    intros x w0 y w1. apply read_content_constructed. }
  rewrite (inside_collapse_then r3) by exact C3.
  apply bind_ext_on. intros r4 w4 H4.
  assert (C4 : constructed r4).
  { eapply and_then_constructed; [ | exact C3 | exact H4 ].
    intros x w0 y w1. apply parse_yaml_constructed. }
  destruct C4 as [-> | [c ->]]; reflexivity.
Qed.

Lemma ensure_path_eval (path b : val) (w w1 : W) :
  isfile path w = (Ok b, w1) ->
  ensure_path path w
  = (Ok (if truthy b then Notebook.succeed path else Notebook.fail), w1).
Proof. intros H. unfold Pipeline.ensure_path. now rewrite (bind_ok _ _ _ _ _ H). Qed.

(** Once the file has been read, what is left of the pipeline. *)
Lemma process_after_read (path b : val) (text : string) (w w1 w2 : W) :
  isfile path w = (Ok b, w1) ->
  truthy b = true ->
  open_read path w1 = (Ok text, w2) ->
  process_and_then path w
  = (let* r := parse_yaml (VStr text) in Notebook.and_then r load_person) w2.
Proof.
  intros Hf Hb Hr. unfold Pipeline.process_and_then.
  rewrite (bind_ok _ _ w w1 (Notebook.succeed path)).
  2:{ rewrite and_then_succeed, (ensure_path_eval _ _ _ _ Hf), Hb. reflexivity. }
  rewrite (bind_ok _ _ w1 w2 (Notebook.succeed (VStr text))).
  2:{ rewrite and_then_succeed. unfold Pipeline.read_content.
      now rewrite (bind_ok _ _ _ _ _ Hr). }
  unfold bind at 1. now rewrite and_then_succeed.
Qed.

Lemma parse_yaml_ok (text : string) (config : val) (w2 w3 : W) :
  safe_load (VStr text) w2 = (Ok config, w3) ->
  parse_yaml (VStr text) w2 = (Ok (Notebook.succeed config), w3).
Proof.
  intros H. unfold Pipeline.parse_yaml, Notebook.attempt, try_except, bind, positional1.
  now rewrite H.
Qed.

Lemma parse_yaml_raised (text : string) (e : exn) (w2 w3 : W) :
  safe_load (VStr text) w2 = (Raise e, w3) ->
  parse_yaml (VStr text) w2 = (Ok Notebook.fail, w3).
Proof.
  intros H. unfold Pipeline.parse_yaml, Notebook.attempt, try_except, bind, positional1.
  now rewrite H.
Qed.

(** X16: rewriting the pipeline with [and_then] changes nothing: the
    [process] written with [.inside(f).collapse()] four times and the one
    written with [.and_then(f)] four times give the same outcome on every
    path, whatever the file system, the loader and the document do. *)
Theorem X16_process_refactoring (path : val) (w : W) :
  process path w = process_and_then path w.
Proof. apply process_same. Qed.

(** X17: when the path is not a file, [process] returns [fail] right after
    the test: nothing is opened, loaded or subscripted (the world is the one
    [os.path.isfile] left). *)
Theorem X17_process_not_a_file (path b : val) (w w1 : W) :
  isfile path w = (Ok b, w1) ->
  truthy b = false ->
  process path w = (Ok Notebook.fail, w1)
  /\ process_and_then path w = (Ok Notebook.fail, w1).
Proof.
  intros Hf Hb. rewrite process_same.
  enough (H : process_and_then path w = (Ok Notebook.fail, w1)) by (split; exact H).
  unfold Pipeline.process_and_then.
  rewrite (bind_ok _ _ w w1 Notebook.fail).
  - reflexivity.
  - rewrite and_then_succeed, (ensure_path_eval _ _ _ _ Hf), Hb. reflexivity.
Qed.

(** X18: reading is the one unguarded step: [read_content] calls
    [open(path).read()] outside [attempt], so when the file exists but
    reading it raises, the exception escapes [process] instead of becoming a
    [Failure]; the document is never loaded. *)
Theorem X18_process_read_error_escapes (path b : val) (e : exn) (w w1 w2 : W) :
  isfile path w = (Ok b, w1) ->
  truthy b = true ->
  open_read path w1 = (Raise e, w2) ->
  process path w = (Raise e, w2)
  /\ process_and_then path w = (Raise e, w2).
Proof.
  intros Hf Hb Hr. rewrite process_same.
  enough (H : process_and_then path w = (Raise e, w2)) by (split; exact H).
  unfold Pipeline.process_and_then.
  rewrite (bind_ok _ _ w w1 (Notebook.succeed path)).
  2:{ rewrite and_then_succeed, (ensure_path_eval _ _ _ _ Hf), Hb. reflexivity. }
  apply bind_raised.
  rewrite and_then_succeed. unfold Pipeline.read_content.
  now apply bind_raised.
Qed.

Lemma load_person_ok (config name age : val) (w3 w4 w5 : W) :
  subscript config "name" w3 = (Ok name, w4) ->
  subscript config "age" w4 = (Ok age, w5) ->
  load_person config w3 = (Ok (Notebook.succeed (Person name age)), w5).
Proof.
  intros Hn Ha.
  unfold Pipeline.load_person, Notebook.attempt, try_except, positional1,
    Pipeline.from_config.
  rewrite (bind_ok _ _ w3 w5 (Person name age)); [ reflexivity | ].
  rewrite (bind_ok _ _ _ _ _ Hn), (bind_ok _ _ _ _ _ Ha). reflexivity.
Qed.

Lemma load_person_no_name (config : val) (e : exn) (w3 w4 : W) :
  subscript config "name" w3 = (Raise e, w4) ->
  load_person config w3 = (Ok Notebook.fail, w4).
Proof.
  intros Hn.
  unfold Pipeline.load_person, Notebook.attempt, try_except, positional1,
    Pipeline.from_config.
  rewrite (bind_raised _ _ w3 w4 e); [ reflexivity | ].
  now apply bind_raised.
Qed.

(** X19: past the reading, nothing can escape: when the file exists and is
    read, [process] returns normally whatever the loader and the document
    do, and what it returns is [succeed(x)] for some [x] or [fail]. *)
Theorem X19_process_contained (path b : val) (text : string) (w w1 w2 : W) :
  isfile path w = (Ok b, w1) ->
  truthy b = true ->
  open_read path w1 = (Ok text, w2) ->
  exists r w', process path w = (Ok r, w') /\ constructed r.
Proof.
  intros Hf Hb Hr.
  rewrite process_same, (process_after_read _ _ _ _ _ _ Hf Hb Hr).
  destruct (safe_load (VStr text) w2) as [[config | e] w3] eqn:Hl.
  - rewrite (bind_ok _ _ _ _ _ (parse_yaml_ok _ _ _ _ Hl)), and_then_succeed.
    apply attempt_returns.
  - rewrite (bind_ok _ _ _ _ _ (parse_yaml_raised _ _ _ _ Hl)).
    exists Notebook.fail, w3. split; [ reflexivity | now left ].
Qed.

(** X20: on a file that exists, is read, loads, and has both keys,
    [process] returns [succeed(Person(config["name"], config["age"]))], the
    steps having run once each, in order. *)
Theorem X20_process_success (path b config name age : val) (text : string)
    (w w1 w2 w3 w4 w5 : W) :
  isfile path w = (Ok b, w1) ->
  truthy b = true ->
  open_read path w1 = (Ok text, w2) ->
  safe_load (VStr text) w2 = (Ok config, w3) ->
  subscript config "name" w3 = (Ok name, w4) ->
  subscript config "age" w4 = (Ok age, w5) ->
  process path w = (Ok (Notebook.succeed (Person name age)), w5)
  /\ process_and_then path w = (Ok (Notebook.succeed (Person name age)), w5).
Proof.
  intros Hf Hb Hr Hl Hn Ha. rewrite process_same.
  enough (H : process_and_then path w
              = (Ok (Notebook.succeed (Person name age)), w5)) by (split; exact H).
  rewrite (process_after_read _ _ _ _ _ _ Hf Hb Hr).
  rewrite (bind_ok _ _ _ _ _ (parse_yaml_ok _ _ _ _ Hl)), and_then_succeed.
  exact (load_person_ok _ _ _ _ _ _ Hn Ha).
Qed.

(** X21: when the loader raises on the text of the file, [process] returns
    [fail] and the document is never subscripted: the world is the one the
    loader left. *)
Theorem X21_process_invalid_document (path b : val) (text : string) (e : exn)
    (w w1 w2 w3 : W) :
  isfile path w = (Ok b, w1) ->
  truthy b = true ->
  open_read path w1 = (Ok text, w2) ->
  safe_load (VStr text) w2 = (Raise e, w3) ->
  process path w = (Ok Notebook.fail, w3)
  /\ process_and_then path w = (Ok Notebook.fail, w3).
Proof.
  intros Hf Hb Hr Hl. rewrite process_same.
  enough (H : process_and_then path w = (Ok Notebook.fail, w3)) by (split; exact H).
  rewrite (process_after_read _ _ _ _ _ _ Hf Hb Hr).
  now rewrite (bind_ok _ _ _ _ _ (parse_yaml_raised _ _ _ _ Hl)).
Qed.

(** X22: when the loaded document has no ["name"] (subscripting raises),
    [process] returns [fail]; ["age"] is not looked up and no [Person] is
    built. *)
Theorem X22_process_missing_name (path b config : val) (text : string) (e : exn)
    (w w1 w2 w3 w4 : W) :
  isfile path w = (Ok b, w1) ->
  truthy b = true ->
  open_read path w1 = (Ok text, w2) ->
  safe_load (VStr text) w2 = (Ok config, w3) ->
  subscript config "name" w3 = (Raise e, w4) ->
  process path w = (Ok Notebook.fail, w4)
  /\ process_and_then path w = (Ok Notebook.fail, w4).
Proof.
  intros Hf Hb Hr Hl Hn. rewrite process_same.
  enough (H : process_and_then path w = (Ok Notebook.fail, w4)) by (split; exact H).
  rewrite (process_after_read _ _ _ _ _ _ Hf Hb Hr).
  rewrite (bind_ok _ _ _ _ _ (parse_yaml_ok _ _ _ _ Hl)), and_then_succeed.
  exact (load_person_no_name _ _ _ _ Hn).
Qed.

End PipelineFacts.

(** The three runs recorded in the notebook, on the two files it writes:
    [Success(Person(name='mkbernard', age=30))], [Failure], [Failure]. *)
Example notebook_process_runs :
  let run path :=
    Pipeline.process disk_isfile disk_read toy_load toy_subscript toy_person
      (VStr path) demo_disk in
  match run "example.yaml", run "example_invalid.yaml", run "not a path" with
  | (Ok r1, _), (Ok r2, _), (Ok r3, _) =>
      Render.str label_str r1 = "Success(Person(name='mkbernard', age=30))"
      /\ Render.str label_str r2 = "Failure"
      /\ Render.str label_str r3 = "Failure"
  | _, _, _ => False
  end.
Proof. vm_compute. repeat split. Qed.

Lemma X17_process_not_a_file_witness :
  Pipeline.process disk_isfile disk_read toy_load toy_subscript toy_person
    (VStr "not a path") demo_disk
  = (Ok Notebook.fail, demo_disk).
Proof.
  apply (X17_process_not_a_file disk_isfile disk_read toy_load toy_subscript
           toy_person (VStr "not a path") (VBool false) demo_disk demo_disk).
  - reflexivity.
  - reflexivity.
Defined.

Lemma X18_process_read_error_escapes_witness :
  Pipeline.process disk_isfile
    (fun _ => raise (PyError "PermissionError" "example.yaml"))
    toy_load toy_subscript toy_person (VStr "example.yaml") demo_disk
  = (Raise (PyError "PermissionError" "example.yaml"), demo_disk).
Proof.
  apply (X18_process_read_error_escapes disk_isfile
           (fun _ => raise (PyError "PermissionError" "example.yaml"))
           toy_load toy_subscript toy_person (VStr "example.yaml") (VBool true)
           (PyError "PermissionError" "example.yaml") demo_disk demo_disk demo_disk).
  - reflexivity.
  - reflexivity.
  - reflexivity.
Defined.

Lemma X19_process_contained_witness :
  exists r w',
    Pipeline.process disk_isfile disk_read toy_load toy_subscript toy_person
      (VStr "example_invalid.yaml") demo_disk = (Ok r, w')
    /\ constructed r.
Proof.
  apply (X19_process_contained disk_isfile disk_read toy_load toy_subscript
           toy_person (VStr "example_invalid.yaml") (VBool true)
           example_invalid_yaml demo_disk demo_disk demo_disk).
  - reflexivity.
  - reflexivity.
  - reflexivity.
Defined.

Lemma X20_process_success_witness :
  Pipeline.process disk_isfile disk_read toy_load toy_subscript toy_person
    (VStr "example.yaml") demo_disk
  = (Ok (Notebook.succeed (toy_person (VStr "mkbernard") (VInt 30))), demo_disk).
Proof.
  apply (X20_process_success disk_isfile disk_read toy_load toy_subscript
           toy_person (VStr "example.yaml") (VBool true) (VObj "config")
           (VStr "mkbernard") (VInt 30) example_yaml
           demo_disk demo_disk demo_disk demo_disk demo_disk demo_disk).
  - reflexivity.
  - reflexivity.
  - reflexivity.
  - reflexivity.
  - reflexivity.
  - reflexivity.
Defined.

Lemma X21_process_invalid_document_witness :
  Pipeline.process disk_isfile disk_read toy_load toy_subscript toy_person
    (VStr "example_invalid.yaml") demo_disk
  = (Ok Notebook.fail, demo_disk).
Proof.
  apply (X21_process_invalid_document disk_isfile disk_read toy_load
           toy_subscript toy_person (VStr "example_invalid.yaml") (VBool true)
           example_invalid_yaml (PyError "ScannerError" "expected '<document start>'")
           demo_disk demo_disk demo_disk demo_disk).
  - reflexivity.
  - reflexivity.
  - reflexivity.
  - reflexivity.
Defined.

Lemma X22_process_missing_name_witness :
  Pipeline.process disk_isfile disk_read toy_load
    (fun _ key => raise (PyError "KeyError" key)) toy_person
    (VStr "example.yaml") demo_disk
  = (Ok Notebook.fail, demo_disk).
Proof.
  apply (X22_process_missing_name disk_isfile disk_read toy_load
           (fun _ key => raise (PyError "KeyError" key)) toy_person
           (VStr "example.yaml") (VBool true) (VObj "config") example_yaml
           (PyError "KeyError" "name") demo_disk demo_disk demo_disk demo_disk demo_disk).
  - reflexivity.
  - reflexivity.
  - reflexivity.
  - reflexivity.
  - reflexivity.
Defined.

(** ** The README's pipeline *)

Section ReadmeFacts.
Context {W : Type}.
Variable exists_ : pyfun W.
Variable open_read : val -> Py W string.

(** X23: the README's [process] cannot deliver a parsed file.  Its
    [read_file] returns the text itself, not [succeed(text)], so when the
    path exists and the file is read, collapsing leaves a bare string and the
    next step fails on it: [process] raises [AttributeError] (no [inside] on
    a string; no [and_then] in the version written with [and_then]). *)
Theorem X23_readme_process_raises (safe_load : pyfun W) (path b : val)
    (text : string) (w w1 w2 : W) :
  exists_ path w = (Ok b, w1) ->
  truthy b = true ->
  open_read path w1 = (Ok text, w2) ->
  ReadmeDemo.process exists_ open_read safe_load path w
    = (Raise (AttributeError "inside"), w2)
  /\ ReadmeDemo.process_and_then exists_ open_read safe_load path w
     = (Raise (AttributeError "and_then"), w2).
Proof.
  intros He Hb Hr.
  assert (H1 : ReadmeDemo.ensure_path exists_ path w = (Ok (Readme.succeed path), w1)).
  { unfold ReadmeDemo.ensure_path. rewrite (bind_ok _ _ _ _ _ He), Hb. reflexivity. }
  assert (H2 : ReadmeDemo.read_file open_read path w1 = (Ok (VStr text), w2)).
  { unfold ReadmeDemo.read_file, try_except. now rewrite (bind_ok _ _ _ _ _ Hr). }
  split.
  - unfold ReadmeDemo.process.
    rewrite (bind_ok _ _ w w1 (Readme.succeed (Readme.succeed path))).
    2:{ cbn [Readme.inside Readme.succeed Readme.Perhaps truthy].
        now rewrite (bind_ok _ _ _ _ _ H1). }
    rewrite (bind_ok _ _ w1 w1 (Readme.succeed path)) by reflexivity.
    rewrite (bind_ok _ _ w1 w2 (Readme.succeed (VStr text))).
    2:{ cbn [Readme.inside Readme.succeed Readme.Perhaps truthy].
        now rewrite (bind_ok _ _ _ _ _ H2). }
    rewrite (bind_ok _ _ w2 w2 (VStr text)) by reflexivity.
    reflexivity.
  - unfold ReadmeDemo.process_and_then.
    rewrite (bind_ok _ _ w w1 (Readme.succeed path)) by exact H1.
    rewrite (bind_ok _ _ w1 w2 (VStr text)) by exact H2.
    reflexivity.
Qed.

(** X24: whatever happens, the README's [process] never returns anything
    but [fail], and never calls the YAML loader: its outcome is the same for
    every [safe_load].  Both hold for the version written with [and_then]
    too. *)
Theorem X24_readme_process_only_fails (safe_load safe_load' : pyfun W)
    (path : val) (w : W) :
  (forall r w', ReadmeDemo.process exists_ open_read safe_load path w = (Ok r, w') ->
                r = Readme.fail)
  /\ (forall r w', ReadmeDemo.process_and_then exists_ open_read safe_load path w
                   = (Ok r, w') -> r = Readme.fail)
  /\ ReadmeDemo.process exists_ open_read safe_load path w
     = ReadmeDemo.process exists_ open_read safe_load' path w
  /\ ReadmeDemo.process_and_then exists_ open_read safe_load path w
     = ReadmeDemo.process_and_then exists_ open_read safe_load' path w.
Proof.
  unfold ReadmeDemo.process, ReadmeDemo.process_and_then, ReadmeDemo.ensure_path,
    ReadmeDemo.read_file, try_except.
  cbn [Readme.inside Readme.and_then Readme.succeed Readme.Perhaps truthy].
  unfold bind, ret.
  destruct (exists_ path w) as [[b | e] w1].
  - destruct (truthy b); cbn.
    + unfold bind, lift, ret. destruct (open_read path w1) as [[t | e] w2]; cbn;
        repeat split; try reflexivity; intros r w' H; inversion H; reflexivity.
    + repeat split; try reflexivity; intros r w' H; inversion H; reflexivity.
  - repeat split; try reflexivity; intros r w' H; discriminate H.
Qed.

End ReadmeFacts.

Lemma X23_readme_process_raises_witness :
  ReadmeDemo.process disk_isfile disk_read toy_load (VStr "example.yaml") demo_disk
  = (Raise (AttributeError "inside"), demo_disk).
Proof.
  apply (X23_readme_process_raises disk_isfile disk_read toy_load
           (VStr "example.yaml") (VBool true) example_yaml
           demo_disk demo_disk demo_disk).
  - reflexivity.
  - reflexivity.
  - reflexivity.
Defined.

(** ** Nesting *)

(** X25: collapsing a doubly nested instance from the outside or from the
    inside is the same: [r.collapse().collapse()] is
    [r.inside(lambda x: x.collapse()).collapse()] on every instance [r] --
    including the cases where the stored value is not an instance and
    [collapse] on it raises [AttributeError]. *)
Theorem X25_collapse_outside_in {W} (v s : val) (w : W) :
  (let* x := Notebook.collapse (VPerhaps v s) in Notebook.collapse x) w
  = (let* y := Notebook.inside (VPerhaps v s) Notebook.collapse in
     Notebook.collapse y) w.
Proof.
  cbn [Notebook.collapse Notebook.inside].
  destruct (truthy s); [ | reflexivity ].
  unfold bind, ret.
  destruct (Notebook.collapse v w) as [[x | e] w1]; reflexivity.
Qed.
